(** * hotel_app: the [Hotel] booking registry of [app.py]

    A shallow embedding of the [Hotel] class (inventory counter, active
    guests, check-out history, per-type occupancy counters) and of the
    [ROOM_TYPES] catalog, with the properties of the registry proved over
    it.

    Python integers are [Z].  The guest dictionaries are heap objects: the
    active mapping and the history hold references to them, and
    [check_out] mutates the dictionary it archives in place.  A method
    call either returns or raises [KeyError]; the registry keeps whatever
    was written before the exception. *)

From stdpp Require Import gmap strings list fin_maps.

Open Scope string_scope.
Open Scope list_scope.
Open Scope Z_scope.

(** ** Insertion-ordered dictionaries with string keys

    [ROOM_TYPES] and the result of [get_available_by_type] are iterated,
    so their order is part of the behaviour: association lists with
    unique keys, in insertion order. *)

Section OrderedDict.
Context {V : Type}.

Fixpoint dict_lookup (d : list (string * V)) (k : string) : option V :=
  match d with
  | [] => None
  | (k', v) :: d' => if decide (k' = k) then Some v else dict_lookup d' k
  end.

(** [d.get(k, dflt)] *)
Definition dict_get (d : list (string * V)) (k : string) (dflt : V) : V :=
  match dict_lookup d k with
  | Some v => v
  | None => dflt
  end.

(** [d[k] = v]: overwrite in place, or append a new key at the end. *)
Fixpoint dict_setitem (d : list (string * V)) (k : string) (v : V)
  : list (string * V) :=
  match d with
  | [] => [(k, v)]
  | (k', v') :: d' =>
      if decide (k' = k) then (k, v) :: d'
      else (k', v') :: dict_setitem d' k v
  end.

(** [list(d)] *)
Definition dict_keys (d : list (string * V)) : list string := d.*1.

End OrderedDict.

(** [l.index(x)]: position of the first occurrence, [None] for the
    [ValueError] of an absent element. *)
Fixpoint list_index (l : list string) (x : string) : option nat :=
  match l with
  | [] => None
  | y :: l' => if decide (y = x) then Some 0%nat else S <$> list_index l' x
  end.

(** ** The catalog *)

Definition ROOM_TYPES : list (string * Z) :=
  [("Single", 50); ("Double", 80); ("Suite", 120)].

(** ** Guest dictionaries

    The dictionary literal of [check_in] has eight keys; [check_out] adds
    ['room_number'] and ['check_out_date'], absent until then. *)

Module Guest.

Record t := mk {
  name : string;
  email : string;
  phone : string;
  room_type : string;
  nights : Z;
  total_cost : Z;
  check_in_date : string;
  special_requests : string;
  room_number : option Z;
  check_out_date : option string
}.

(** [guest['room_number'] = n] *)
Definition set_room_number (n : Z) (g : t) : t :=
  mk (name g) (email g) (phone g) (room_type g) (nights g) (total_cost g)
     (check_in_date g) (special_requests g) (Some n) (check_out_date g).

(** [guest['check_out_date'] = d] *)
Definition set_check_out_date (d : string) (g : t) : t :=
  mk (name g) (email g) (phone g) (room_type g) (nights g) (total_cost g)
     (check_in_date g) (special_requests g) (room_number g) (Some d).

End Guest.

(** ** The registry and the object store *)

(** References to guest dictionaries: positions in the store. *)
Abbreviation ref := nat (only parsing).

Record Hotel := mkHotel {
  total_rooms : Z;
  available_rooms : Z;
  guests : gmap Z ref;              (* room_number -> guest_info dict *)
  history : list ref;               (* list of checked-out guests *)
  room_type_count : gmap string Z
}.

Record state := mkState {
  store : list Guest.t;
  self : Hotel
}.

(** ** Method bodies: state passing with exceptions *)

(** [KeyError] and [ValueError] are Python's.  [DanglingRef] is the
    embedding's own: a reference outside the store, which no registry
    built by the methods ever holds (see [store_ok]). *)
Inductive exn :=
  | KeyError (key : string)
  | ValueError
  | DanglingRef (r : nat).

Inductive outcome (A : Type) :=
  | Returns (a : A)
  | Raises (e : exn).
Arguments Returns {A} a.
Arguments Raises {A} e.

Definition M (A : Type) : Type := state -> outcome A * state.

Definition ret {A} (a : A) : M A := fun s => (Returns a, s).

Definition raise {A} (e : exn) : M A := fun s => (Raises e, s).

Definition bind {A B} (m : M A) (k : A -> M B) : M B :=
  fun s =>
    match m s with
    | (Returns a, s') => k a s'
    | (Raises e, s') => (Raises e, s')
    end.

Declare Scope py_scope.
Delimit Scope py_scope with py.
Notation "x <~ m ;; k" := (bind m (fun x => k))
  (at level 100, m at next level, right associativity) : py_scope.
Notation "m ;; k" := (bind m (fun _ => k))
  (at level 100, right associativity) : py_scope.

(** Attribute reads and writes on [self]. *)
Definition read {A} (attr : Hotel -> A) : M A :=
  fun s => (Returns (attr (self s)), s).

Definition write_available_rooms (v : Z) : M unit :=
  fun s =>
    let h := self s in
    (Returns tt,
     mkState (store s)
       (mkHotel (total_rooms h) v (guests h) (history h) (room_type_count h))).

Definition write_guests (v : gmap Z ref) : M unit :=
  fun s =>
    let h := self s in
    (Returns tt,
     mkState (store s)
       (mkHotel (total_rooms h) (available_rooms h) v (history h)
          (room_type_count h))).

Definition write_history (v : list ref) : M unit :=
  fun s =>
    let h := self s in
    (Returns tt,
     mkState (store s)
       (mkHotel (total_rooms h) (available_rooms h) (guests h) v
          (room_type_count h))).

Definition write_room_type_count (v : gmap string Z) : M unit :=
  fun s =>
    let h := self s in
    (Returns tt,
     mkState (store s)
       (mkHotel (total_rooms h) (available_rooms h) (guests h) (history h) v)).

(** A dictionary literal: a new object, at a reference not in use. *)
Definition new_dict (g : Guest.t) : M ref :=
  fun s => (Returns (length (store s)), mkState (store s ++ [g]) (self s)).

(** In-place update of the dictionary behind a reference. *)
Definition update_dict (r : ref) (f : Guest.t -> Guest.t) : M unit :=
  fun s => (Returns tt, mkState (alter f r (store s)) (self s)).

(** Read through a reference. *)
Definition deref (r : ref) : M Guest.t :=
  fun s =>
    match store s !! r with
    | Some g => (Returns g, s)
    | None => (Raises (DanglingRef r), s)
    end.

(** [d[k]] on a built-in dict: [KeyError] when the key is absent. *)
Definition getitem (d : gmap string Z) (k : string) : M Z :=
  match d !! k with
  | Some v => ret v
  | None => raise (KeyError k)
  end.

Open Scope py_scope.

(** [Hotel.__init__], with an empty object store. *)
Definition init (total_rooms : Z) : state :=
  mkState []
    (mkHotel total_rooms total_rooms ∅ []
       (list_to_map ((fun key => (key, 0)) <$> dict_keys ROOM_TYPES))).

(** [Hotel.check_in]; [now] is the formatted reading of the clock. *)
Definition check_in (name email phone room_type : string) (nights : Z)
    (special_requests : string) (now : string) : M (option Z) :=
  avail <~ read available_rooms;;
  if avail =? 0 then ret None
  else
    total <~ read total_rooms;;
    avail <~ read available_rooms;;
    let room_number := total - avail + 1 in
    let price_per_night := dict_get ROOM_TYPES room_type 50 in
    let total_cost := price_per_night * nights in
    let check_in_date := now in
    g <~ new_dict (Guest.mk name email phone room_type nights total_cost
                     check_in_date special_requests None None);;
    gs <~ read guests;;
    write_guests (<[room_number := g]> gs);;
    avail <~ read available_rooms;;
    write_available_rooms (avail - 1);;
    counts <~ read room_type_count;;
    c <~ getitem counts room_type;;
    write_room_type_count (<[room_type := c + 1]> counts);;
    ret (Some room_number).

(** [Hotel.check_out]; returns the reference of the archived dictionary. *)
Definition check_out (room_number : Z) (now : string) : M (option ref) :=
  gs <~ read guests;;
  match gs !! room_number with
  | Some guest =>
      write_guests (delete room_number gs);;
      update_dict guest (Guest.set_room_number room_number);;
      update_dict guest (Guest.set_check_out_date now);;
      h <~ read history;;
      write_history (h ++ [guest]);;
      avail <~ read available_rooms;;
      write_available_rooms (avail + 1);;
      counts <~ read room_type_count;;
      g <~ deref guest;;
      c <~ getitem counts (Guest.room_type g);;
      write_room_type_count (<[Guest.room_type g := c - 1]> counts);;
      ret (Some guest)
  | None => ret None
  end.

Definition get_guest_list : M (gmap Z ref) := read guests.

Definition get_available_rooms : M Z := read available_rooms.


(** [Hotel.get_available_by_type]: the loop over the catalog keys. *)
Fixpoint available_by_type_loop (rtypes : list string)
    (result : list (string * Z)) : M (list (string * Z)) :=
  match rtypes with
  | [] => ret result
  | rtype :: rest =>
      match list_index (dict_keys ROOM_TYPES) rtype with
      | Some i =>
          let total := Z.of_nat i + 1 in
          counts <~ read room_type_count;;
          c <~ getitem counts rtype;;
          available_by_type_loop rest (dict_setitem result rtype (total - c))
      | None => raise ValueError
      end
  end.

Definition get_available_by_type : M (list (string * Z)) :=
  available_by_type_loop (dict_keys ROOM_TYPES) [].

(** ** Call sequences *)

Inductive call :=
  | CheckIn (name email phone room_type : string) (nights : Z)
      (special_requests now : string)
  | CheckOut (room_number : Z) (now : string).

(** The registry after a call, whether it returned or raised. *)
Definition run_call (c : call) (s : state) : state :=
  match c with
  | CheckIn name email phone room_type nights special_requests now =>
      (check_in name email phone room_type nights special_requests now s).2
  | CheckOut room_number now => (check_out room_number now s).2
  end.

Definition run (cs : list call) (s : state) : state :=
  foldl (fun s c => run_call c s) s cs.

(** States of a [Hotel(total)] after finitely many calls; a call that
    raised counts, since the registry outlives the failed request. *)
Inductive reachable (total : Z) : state -> Prop :=
  | reachable_init : reachable total (init total)
  | reachable_call s c :
      reachable total s -> reachable total (run_call c s).

(** ** Vocabulary of the proofs *)

(** The dictionary literal built by [check_in]. *)
Definition new_guest (name email phone room_type : string) (nights : Z)
    (special_requests now : string) : Guest.t :=
  Guest.mk name email phone room_type nights
    (dict_get ROOM_TYPES room_type 50 * nights) now special_requests
    None None.

(** The dictionary as [check_out] leaves it. *)
Definition archived (room_number : Z) (now : string) (g : Guest.t) : Guest.t :=
  Guest.set_check_out_date now (Guest.set_room_number room_number g).

(** The registry after the writes of [check_in], with counters [c]. *)
Definition booked (s : state) (g : Guest.t) (c : gmap string Z) : state :=
  let h := self s in
  mkState (store s ++ [g])
    (mkHotel (total_rooms h) (available_rooms h - 1)
       (<[total_rooms h - available_rooms h + 1 := length (store s)]>
          (guests h))
       (history h) c).

(** The registry after the writes of [check_out], with counters [c]. *)
Definition freed (s : state) (room_number : Z) (now : string) (guest : ref)
    (c : gmap string Z) : state :=
  let h := self s in
  mkState (alter (archived room_number now) guest (store s))
    (mkHotel (total_rooms h) (available_rooms h + 1)
       (delete room_number (guests h)) (history h ++ [guest]) c).

(** The counters are either left alone (the call raised before writing
    them) or rewritten at one existing key. *)
Definition counters_step (counts counts' : gmap string Z) : Prop :=
  counts' = counts \/
  exists k c d, counts !! k = Some c /\ counts' = <[k := d]> counts.

(** What one call can do to the registry, whether it returns or raises:
    nothing, a booking, or a release. *)
Inductive transition (s : state) : state -> Prop :=
  | tr_none : transition s s
  | tr_book name email phone room_type nights special_requests now counts' :
      available_rooms (self s) <> 0 ->
      counters_step (room_type_count (self s)) counts' ->
      transition s
        (booked s
           (new_guest name email phone room_type nights special_requests now)
           counts')
  | tr_free room_number now guest counts' :
      guests (self s) !! room_number = Some guest ->
      counters_step (room_type_count (self s)) counts' ->
      transition s (freed s room_number now guest counts').

(** The per-type counters have exactly the catalog's keys. *)
Definition counters_ok (s : state) : Prop :=
  forall k,
    is_Some (room_type_count (self s) !! k) <-> k ∈ dict_keys ROOM_TYPES.

(** Every reference of the registry points into the store; an active
    dictionary is held under one room number only and is not archived. *)
Record store_ok (s : state) : Prop := mk_store_ok {
  guests_in_store :
    forall r (l : ref),
      guests (self s) !! r = Some l -> (l < length (store s))%nat;
  history_in_store :
    forall l : ref, l ∈ history (self s) -> (l < length (store s))%nat;
  guests_not_archived :
    forall r (l : ref), guests (self s) !! r = Some l -> l ∉ history (self s);
  guests_distinct :
    forall r1 r2 (l : ref),
      guests (self s) !! r1 = Some l -> guests (self s) !! r2 = Some l ->
      r1 = r2
}.

(** The price table in the words of the specification: Single 50,
    Double 80, Suite 120, and 50 for any other room type. *)
Definition nightly_price (room_type : string) : Z :=
  if decide (room_type = "Single") then 50
  else if decide (room_type = "Double") then 80
  else if decide (room_type = "Suite") then 120
  else 50.

Definition priced (g : Guest.t) : Prop :=
  Guest.total_cost g = nightly_price (Guest.room_type g) * Guest.nights g.

(** ** Scenarios *)

Definition alice : call :=
  CheckIn "Alice" "alice@example.org" "555-0101" "Single" 2 ""
    "2024-05-01 10:00:00".

Definition bob : call :=
  CheckIn "Bob" "bob@example.org" "555-0102" "Suite" 1 "late arrival"
    "2024-05-01 11:00:00".

Definition carol : call :=
  CheckIn "Carol" "carol@example.org" "555-0103" "Double" 3 ""
    "2024-05-02 09:00:00".

Definition dave : call :=
  CheckIn "Dave" "dave@example.org" "555-0104" "Single" 1 ""
    "2024-05-02 10:00:00".

Definition erin : call :=
  CheckIn "Erin" "erin@example.org" "555-0105" "Double" 2 ""
    "2024-05-02 11:00:00".

(** A room type that the catalog does not have. *)
Definition eve : call :=
  CheckIn "Eve" "eve@example.org" "555-0106" "Penthouse" 2 ""
    "2024-05-02 12:00:00".

(** Two guests, then the first one leaves. *)
Definition after_first_leaves : state :=
  run [alice; bob; CheckOut 1 "2024-05-03 12:00:00"] (init 5).

Definition three_guests : state := run [alice; bob; carol] (init 5).

Definition full_house : state := run [alice; bob; carol; dave; erin] (init 5).

Definition after_eve : state := run [eve] (init 5).

(** ** CSV export and the HTTP handlers

    The handlers work on the one registry of the process.  [export] is
    modelled up to the rows handed to [csv.writer]; a cell is a string or
    an integer, as in the guest dictionaries. *)

Inductive cell :=
  | CStr (text : string)
  | CInt (n : Z).





Inductive response :=
  | Redirect (endpoint : string)
  | CsvAttachment (filename : string) (rows : list (list cell)).


(** What leaves a handler other than a response: the [BadRequestKeyError]
    of [request.form[key]], the [ValueError] of [int], or an exception of
    the registry that nothing caught. *)
Inductive failure :=
  | BadRequestKeyError (key : string)
  | IntValueError (text : string)
  | Escaped (e : exn).

Inductive reply :=
  | Responds (r : response)
  | Fails (f : failure).

(** [request.form[key]] followed by the rest of the handler. *)
Definition form_getitem (form : gmap string string) (key : string)
    (s : state) (rest : string -> reply * state) : reply * state :=
  match form !! key with
  | Some v => rest v
  | None => (Fails (BadRequestKeyError key), s)
  end.

Section Handlers.

(** The builtin [int] on a form value; [None] is its [ValueError]. *)
Variable py_int : string -> option Z.

(** [checkin]: POST /checkin. *)
Definition checkin (form : gmap string string) (now : string) (s : state)
  : reply * state :=
  form_getitem form "name" s (fun name =>
  form_getitem form "email" s (fun email =>
  form_getitem form "phone" s (fun phone =>
  form_getitem form "room_type" s (fun room_type =>
  form_getitem form "nights" s (fun text =>
  match py_int text with
  | None => (Fails (IntValueError text), s)
  | Some nights =>
      let special_requests :=
        match form !! "special_requests" with
        | Some v => v
        | None => EmptyString
        end in
      match check_in name email phone room_type nights special_requests
              now s with
      | (Returns _, s') => (Responds (Redirect "index"), s')
      | (Raises e, s') => (Fails (Escaped e), s')
      end
  end))))).

(** [checkout]: POST /checkout.  The [try] covers [int] and [check_out];
    [except ValueError] lets every other exception through. *)
Definition checkout (form : gmap string string) (now : string) (s : state)
  : reply * state :=
  form_getitem form "room" s (fun text =>
  match py_int text with
  | None => (Responds (Redirect "index"), s)
  | Some room =>
      match check_out room now s with
      | (Returns _, s') => (Responds (Redirect "index"), s')
      | (Raises ValueError, s') => (Responds (Redirect "index"), s')
      | (Raises e, s') => (Fails (Escaped e), s')
      end
  end).

End Handlers.

(** ** Further vocabulary *)

(** A stay of room type [k] that was never checked out. *)
Definition open_stay (k : string) (g : Guest.t) : Prop :=
  Guest.room_type g = k /\ Guest.check_out_date g = None.

Definition open_stays (k : string) (st : list Guest.t) : nat :=
  length (filter (open_stay k) st).

(** [1] for an open stay of type [k], [0] otherwise. *)
Definition open_weight (k : string) (g : Guest.t) : nat :=
  if decide (open_stay k g) then 1%nat else 0%nat.

(** Each catalog type's counter is the number of its open stays. *)
Definition counters_count_open_stays (s : state) : Prop :=
  forall k,
    k ∈ dict_keys ROOM_TYPES ->
    room_type_count (self s) !! k = Some (Z.of_nat (open_stays k (store s))).


(** The keys of the dictionary [check_out] has archived, and of the one it
    has not. *)
Definition is_archived (g : Guest.t) : Prop :=
  is_Some (Guest.room_number g) /\ is_Some (Guest.check_out_date g).

Definition is_active (g : Guest.t) : Prop :=
  Guest.room_number g = None /\ Guest.check_out_date g = None.

Definition records_ok (s : state) : Prop :=
  (forall l : ref,
      l ∈ history (self s) -> exists g, store s !! l = Some g /\ is_archived g) /\
  (forall r (l : ref),
      guests (self s) !! r = Some l ->
      exists g, store s !! l = Some g /\ is_active g).

(** The occupied numbers are 1 .. [total_rooms - available_rooms]. *)
Definition compact (s : state) : Prop :=
  (forall r,
      is_Some (guests (self s) !! r) <->
      1 <= r <= total_rooms (self s) - available_rooms (self s)) /\
  Z.of_nat (size (guests (self s)))
  = total_rooms (self s) - available_rooms (self s).

(** A check-out of the room booked last, or of a room that is free. *)
Definition leaves_last (s : state) (c : call) : Prop :=
  match c with
  | CheckIn _ _ _ _ _ _ _ => True
  | CheckOut room_number _ =>
      guests (self s) !! room_number = None \/
      room_number = total_rooms (self s) - available_rooms (self s)
  end.

(** Registries reached with guests leaving in reverse order of arrival. *)
Inductive lifo_reachable (total : Z) : state -> Prop :=
  | lifo_init : lifo_reachable total (init total)
  | lifo_call s c :
      lifo_reachable total s -> leaves_last s c ->
      lifo_reachable total (run_call c s).

(** A reading of decimal digits, to have a concrete [int] at hand. *)
Fixpoint digits_value (acc : Z) (text : string) : option Z :=
  match text with
  | EmptyString => Some acc
  | String a rest =>
      let d := Z.of_N (Ascii.N_of_ascii a) - 48 in
      if (0 <=? d) && (d <=? 9) then digits_value (10 * acc + d) rest
      else None
  end.

Definition int_of_digits (text : string) : option Z :=
  match text with
  | EmptyString => None
  | _ => digits_value 0 text
  end.

(** The room number a call works on: the one [check_in] computes, the
    one [check_out] is given. *)
Definition call_room (s : state) (c : call) : Z :=
  match c with
  | CheckIn _ _ _ _ _ _ _ =>
      total_rooms (self s) - available_rooms (self s) + 1
  | CheckOut room_number _ => room_number
  end.

(** Form data for the handlers. *)
Definition room_form (room : string) : gmap string string :=
  {[ "room" := room ]}.

Definition booking_form (name room_type nights : string)
  : gmap string string :=
  list_to_map
    [("name", name); ("email", "guest@example.org"); ("phone", "555-0100");
     ("room_type", room_type); ("nights", nights)].

(** * Proofs *)

(** ** The method bodies as equations *)

Section CheckIn.
Variables (name email phone room_type : string) (nights : Z).
Variables (special_requests now : string).

Lemma check_in_full s :
  available_rooms (self s) = 0 ->
  check_in name email phone room_type nights special_requests now s
  = (Returns None, s).
Proof.
  intros H. unfold check_in, bind, read, ret. simpl. rewrite H. reflexivity.
Qed.

Lemma check_in_eq s :
  available_rooms (self s) <> 0 ->
  check_in name email phone room_type nights special_requests now s
  = let g :=
      new_guest name email phone room_type nights special_requests now in
    let counts := room_type_count (self s) in
    match counts !! room_type with
    | Some c =>
        (Returns (Some (total_rooms (self s) - available_rooms (self s) + 1)),
         booked s g (<[room_type := c + 1]> counts))
    | None => (Raises (KeyError room_type), booked s g counts)
    end.
Proof.
  intros H. apply Z.eqb_neq in H.
  unfold check_in, bind, read, ret. simpl. rewrite H.
  unfold getitem, new_dict, write_guests, write_available_rooms. simpl.
  destruct (room_type_count (self s) !! room_type); reflexivity.
Qed.

End CheckIn.

Lemma check_out_absent room_number now s :
  guests (self s) !! room_number = None ->
  check_out room_number now s = (Returns None, s).
Proof.
  intros H. unfold check_out, bind, read, ret. simpl. rewrite H. reflexivity.
Qed.

Lemma check_out_eq room_number now s guest :
  guests (self s) !! room_number = Some guest ->
  check_out room_number now s
  = let counts := room_type_count (self s) in
    match store s !! guest with
    | Some g =>
        match counts !! Guest.room_type g with
        | Some c =>
            (Returns (Some guest),
             freed s room_number now guest
               (<[Guest.room_type g := c - 1]> counts))
        | None =>
            (Raises (KeyError (Guest.room_type g)),
             freed s room_number now guest counts)
        end
    | None => (Raises (DanglingRef guest), freed s room_number now guest counts)
    end.
Proof.
  intros Hg. unfold check_out, bind, read, ret. simpl. rewrite Hg.
  unfold write_guests, update_dict, write_history, write_available_rooms,
    deref, getitem. simpl.
  rewrite list_alter_alter_eq, list_lookup_alter_eq.
  destruct (store s !! guest) as [g|]; simpl; [|reflexivity].
  destruct (room_type_count (self s) !! Guest.room_type g); reflexivity.
Qed.

(** Whatever the outcome, the writes of [check_out] up to the counter
    update have happened. *)
Lemma check_out_state room_number now s guest :
  guests (self s) !! room_number = Some guest ->
  exists counts',
    counters_step (room_type_count (self s)) counts' /\
    (check_out room_number now s).2 = freed s room_number now guest counts'.
Proof.
  intros Hg. rewrite (check_out_eq _ _ _ _ Hg). simpl.
  destruct (store s !! guest) as [g|].
  - destruct (room_type_count (self s) !! Guest.room_type g) as [c|] eqn:Hc;
      simpl; eexists; (split; [|reflexivity]).
    + right. eauto.
    + left. reflexivity.
  - simpl. eexists. split; [left|]; reflexivity.
Qed.

(** ** One call is one transition *)

Lemma run_call_transition c s : transition s (run_call c s).
Proof.
  destruct c as [name email phone room_type nights special_requests now
                |room_number now]; simpl.
  - destruct (decide (available_rooms (self s) = 0)) as [H0|H0].
    + rewrite check_in_full by assumption. constructor.
    + rewrite check_in_eq by assumption. simpl.
      destruct (room_type_count (self s) !! room_type) as [c|] eqn:Hc; simpl.
      * apply tr_book; [assumption|]. right. eauto.
      * apply tr_book; [assumption|]. left. reflexivity.
  - destruct (guests (self s) !! room_number) as [guest|] eqn:Hg.
    + destruct (check_out_state _ now _ _ Hg) as (counts' & Hstep & ->).
      apply tr_free; assumption.
    + rewrite check_out_absent by assumption. constructor.
Qed.

Lemma reachable_transition_ind total (P : state -> Prop) :
  P (init total) ->
  (forall s s', reachable total s -> P s -> transition s s' -> P s') ->
  forall s, reachable total s -> P s.
Proof.
  intros Hinit Hstep s Hr. induction Hr as [|s c Hr IH]; [assumption|].
  eapply Hstep; eauto using run_call_transition.
Qed.

Lemma reachable_run total cs s :
  reachable total s -> reachable total (run cs s).
Proof.
  revert s. induction cs as [|c cs IH]; intros s Hr; simpl; [assumption|].
  apply IH. constructor. assumption.
Qed.

(** ** The counters keep the catalog's keys *)

Lemma counters_step_dom counts counts' k :
  counters_step counts counts' ->
  is_Some (counts' !! k) <-> is_Some (counts !! k).
Proof.
  intros [->|(k0 & c & d & Hk & ->)]; [reflexivity|].
  destruct (decide (k0 = k)) as [->|Hne].
  - rewrite lookup_insert_eq, Hk. split; eauto.
  - rewrite lookup_insert_ne by assumption. reflexivity.
Qed.

Lemma counters_ok_init total : counters_ok (init total).
Proof.
  intros k. unfold init. cbn [self room_type_count].
  rewrite <- elem_of_dom, dom_list_to_map_L, elem_of_list_to_set.
  rewrite <- list_fmap_compose. unfold dict_keys.
  rewrite (list_fmap_ext (fst ∘ (fun key : string => (key, 0))) id)
    by reflexivity.
  rewrite list_fmap_id. reflexivity.
Qed.

Lemma counters_ok_transition s s' :
  transition s s' -> counters_ok s -> counters_ok s'.
Proof.
  intros Ht Hok k. destruct Ht; simpl; [apply Hok| |];
    (etransitivity; [eapply counters_step_dom; eassumption | apply Hok]).
Qed.

Lemma reachable_counters_ok total s : reachable total s -> counters_ok s.
Proof.
  apply reachable_transition_ind;
    eauto using counters_ok_init, counters_ok_transition.
Qed.

(** ** References stay valid and unshared *)

Lemma store_ok_init total : store_ok (init total).
Proof.
  split; simpl.
  - intros r l H. rewrite lookup_empty in H. discriminate.
  - intros l H. inversion H.
  - intros r l H. rewrite lookup_empty in H. discriminate.
  - intros r1 r2 l H. rewrite lookup_empty in H. discriminate.
Qed.

Lemma store_ok_transition s s' :
  transition s s' -> store_ok s -> store_ok s'.
Proof.
  intros Ht [Hg Hh Hn Hd]. destruct Ht; [split; assumption| |].
  - (* a booking: the new reference is fresh *)
    split; simpl.
    + intros r l Hl. rewrite length_app. simpl.
      apply lookup_insert_Some in Hl as [[_ <-]|[_ Hl]]; [lia|].
      apply Hg in Hl. lia.
    + intros l Hl. rewrite length_app. apply Hh in Hl. lia.
    + intros r l Hl Hin.
      apply lookup_insert_Some in Hl as [[_ <-]|[_ Hl]].
      * apply Hh in Hin. lia.
      * exact (Hn _ _ Hl Hin).
    + intros r1 r2 l H1 H2.
      apply lookup_insert_Some in H1 as [[<- <-]|[Hne1 H1]];
        apply lookup_insert_Some in H2 as [[<- E2]|[Hne2 H2]];
        try reflexivity.
      * apply Hg in H2. lia.
      * subst l. apply Hg in H1. lia.
      * eauto.
  - (* a release: the archived reference leaves the active mapping *)
    split; simpl.
    + intros r l Hl. rewrite length_alter.
      apply lookup_delete_Some in Hl as [_ Hl]. eauto.
    + intros l Hl. rewrite length_alter.
      apply elem_of_app in Hl as [Hl|Hl]; [eauto|].
      apply list_elem_of_singleton in Hl as ->. eauto.
    + intros r l Hl Hin.
      apply lookup_delete_Some in Hl as [Hne Hl].
      apply elem_of_app in Hin as [Hin|Hin]; [exact (Hn _ _ Hl Hin)|].
      apply list_elem_of_singleton in Hin as ->. eauto.
    + intros r1 r2 l H1 H2.
      apply lookup_delete_Some in H1 as [_ H1].
      apply lookup_delete_Some in H2 as [_ H2]. eauto.
Qed.

Lemma reachable_store_ok total s : reachable total s -> store_ok s.
Proof.
  apply reachable_transition_ind;
    eauto using store_ok_init, store_ok_transition.
Qed.

(** ** The occupancy count never exceeds the inventory *)

Lemma occupancy_le_transition s s' :
  transition s s' ->
  available_rooms (self s') + Z.of_nat (size (guests (self s')))
  <= available_rooms (self s) + Z.of_nat (size (guests (self s))).
Proof.
  intros Ht. destruct Ht as [| |room_number now guest counts' Hg _]; simpl.
  - lia.
  - rewrite map_size_insert.
    destruct (guests (self s) !! _); simpl; lia.
  - rewrite map_size_delete, Hg.
    pose proof (map_size_ne_0_lookup_2 _ _ (mk_is_Some _ _ Hg)). lia.
Qed.

Lemma reachable_occupancy_le total s :
  reachable total s ->
  available_rooms (self s) + Z.of_nat (size (guests (self s)))
  <= total_rooms (self s) /\ total_rooms (self s) = total.
Proof.
  revert s. apply reachable_transition_ind.
  - simpl. rewrite map_size_empty. lia.
  - intros s s' _ [IH Ht] Htr.
    pose proof (occupancy_le_transition _ _ Htr).
    split; [|destruct Htr; assumption].
    replace (total_rooms (self s')) with (total_rooms (self s))
      by (destruct Htr; reflexivity).
    lia.
Qed.

(** ** Prices *)

Lemma catalog_price room_type :
  dict_get ROOM_TYPES room_type 50 = nightly_price room_type.
Proof.
  unfold dict_get, nightly_price, ROOM_TYPES, dict_lookup.
  repeat case_decide; congruence.
Qed.

Lemma priced_transition s s' :
  transition s s' ->
  (forall (l : ref) g, store s !! l = Some g -> priced g) ->
  forall (l : ref) g, store s' !! l = Some g -> priced g.
Proof.
  intros Ht Hp. destruct Ht; simpl; [assumption| |]; intros l g Hl.
  - apply lookup_snoc_Some in Hl as [[_ Hl]|[_ Hl]]; [eauto|]. subst g.
    unfold priced, new_guest. simpl. rewrite catalog_price. reflexivity.
  - rewrite list_lookup_alter in Hl. case_decide; [subst l|eauto].
    destruct (store s !! guest) as [g0|] eqn:Hg0; [|discriminate].
    injection Hl as <-. exact (Hp _ _ Hg0).
Qed.

(** ** History *)

Lemma history_transition s s' :
  transition s s' -> store_ok s ->
  (exists suffix, history (self s') = history (self s) ++ suffix) /\
  (forall l : ref, l ∈ history (self s) -> store s' !! l = store s !! l).
Proof.
  intros Ht Hok. destruct Ht as [| |room_number now guest counts' Hg _]; simpl.
  - split; [exists []; rewrite app_nil_r; reflexivity | reflexivity].
  - split; [exists []; rewrite app_nil_r; reflexivity |].
    intros l Hl. apply lookup_app_l. exact (history_in_store _ Hok _ Hl).
  - split; [eauto|].
    intros l Hl. apply list_lookup_alter_ne.
    intros ->. exact (guests_not_archived _ Hok _ _ Hg Hl).
Qed.

Lemma history_run cs s :
  store_ok s ->
  (exists suffix, history (self (run cs s)) = history (self s) ++ suffix) /\
  (forall l : ref, l ∈ history (self s) -> store (run cs s) !! l = store s !! l).
Proof.
  revert s. induction cs as [|c cs IH]; intros s Hok; simpl.
  - split; [exists []; rewrite app_nil_r; reflexivity | reflexivity].
  - pose proof (run_call_transition c s) as Ht.
    destruct (history_transition _ _ Ht Hok) as [[suf1 E1] Hs1].
    destruct (IH _ (store_ok_transition _ _ Ht Hok)) as [[suf2 E2] Hs2].
    split.
    + exists (suf1 ++ suf2). rewrite E2, E1, app_assoc. reflexivity.
    + intros l Hl. rewrite Hs2; [auto|].
      rewrite E1. apply elem_of_app. auto.
Qed.

Lemma check_out_history room_number now s guest :
  guests (self s) !! room_number = Some guest ->
  history (self (run_call (CheckOut room_number now) s))
  = history (self s) ++ [guest] /\
  guests (self (run_call (CheckOut room_number now) s))
  = delete room_number (guests (self s)).
Proof.
  intros Hg. simpl.
  destruct (check_out_state _ now _ _ Hg) as (counts' & _ & ->).
  split; reflexivity.
Qed.

(** ** Availability by type *)

Lemma get_available_by_type_eq s c1 c2 c3 :
  room_type_count (self s) !! "Single" = Some c1 ->
  room_type_count (self s) !! "Double" = Some c2 ->
  room_type_count (self s) !! "Suite" = Some c3 ->
  get_available_by_type s
  = (Returns [("Single", 1 - c1); ("Double", 2 - c2); ("Suite", 3 - c3)], s).
Proof.
  intros H1 H2 H3.
  unfold get_available_by_type. simpl.
  unfold bind, read, getitem. simpl.
  rewrite H1. simpl. rewrite H2. simpl. rewrite H3. reflexivity.
Qed.

Lemma catalog_key_counted s k :
  counters_ok s -> k ∈ dict_keys ROOM_TYPES ->
  exists c, room_type_count (self s) !! k = Some c.
Proof. intros Hok Hk. apply Hok in Hk as [c Hc]. eauto. Qed.

(** ** What the two methods do when they get through *)

(** [check_in] with a room type that has no counter: the booking is
    written, then line 53 raises. *)
Lemma check_in_unknown_type_raises total s
    name email phone room_type nights special_requests now :
  reachable total s ->
  available_rooms (self s) <> 0 ->
  room_type ∉ dict_keys ROOM_TYPES ->
  check_in name email phone room_type nights special_requests now s
  = (Raises (KeyError room_type),
     booked s
       (new_guest name email phone room_type nights special_requests now)
       (room_type_count (self s))).
Proof.
  intros Hr H0 Hk. rewrite check_in_eq by assumption. simpl.
  destruct (room_type_count (self s) !! room_type) as [c|] eqn:Hc;
    [|reflexivity].
  exfalso. apply Hk. apply (reachable_counters_ok _ _ Hr). eauto.
Qed.

(** [check_out] of an active room whose stay has a counted room type. *)
Lemma check_out_archives room_number now s guest g c :
  guests (self s) !! room_number = Some guest ->
  store s !! guest = Some g ->
  room_type_count (self s) !! Guest.room_type g = Some c ->
  exists s',
    check_out room_number now s = (Returns (Some guest), s') /\
    guests (self s') = delete room_number (guests (self s)) /\
    history (self s') = history (self s) ++ [guest] /\
    available_rooms (self s') = available_rooms (self s) + 1 /\
    room_type_count (self s')
    = <[Guest.room_type g := c - 1]> (room_type_count (self s)) /\
    store s' !! guest = Some (archived room_number now g).
Proof.
  intros Hg Hs Hc. rewrite (check_out_eq _ _ _ _ Hg), Hs. simpl. rewrite Hc.
  eexists. split; [reflexivity|]. simpl. repeat split.
  rewrite list_lookup_alter_eq, Hs. reflexivity.
Qed.

(** * Properties of the registry *)

(** C1, on the code: after two check-ins, the check-out of room 1 and a
    third check-in, the registry of [Hotel(5)] has 3 available rooms and
    one active guest, so [available_rooms] plus the number of active
    guests is 4 and not [total_rooms]. *)
Theorem occupancy_sum_broken_by_reused_number :
  let s := run [carol] after_first_leaves in
  reachable 5 s /\
  total_rooms (self s) = 5 /\
  available_rooms (self s) = 3 /\
  size (guests (self s)) = 1%nat /\
  available_rooms (self s) + Z.of_nat (size (guests (self s)))
  <> total_rooms (self s).
Proof.
  split; [|vm_compute; repeat split; discriminate].
  unfold after_first_leaves. repeat apply reachable_run. constructor.
Qed.

(** C2, on the code: in a fresh [Hotel(5)], [check_in] with the room type
    "Penthouse" prices the stay at the default rate (50 * 2 nights),
    stores it under room 1 and decrements [available_rooms], then raises
    [KeyError] at the counter update: no room number is returned. *)
Theorem check_in_unknown_type_raises_key_error :
  let r :=
    check_in "Eve" "eve@example.org" "555-0106" "Penthouse" 2 ""
      "2024-05-02 12:00:00" (init 5) in
  r.1 = Raises (KeyError "Penthouse") /\
  available_rooms (self r.2) = 4 /\
  guests (self r.2) !! 1 = Some 0%nat /\
  Guest.total_cost <$> store r.2 !! 0%nat = Some 100 /\
  room_type_count (self r.2) = room_type_count (self (init 5)).
Proof. vm_compute. repeat split. Qed.

(** C3: there is a reachable registry and a [check_in] call whose room
    number [total_rooms - available_rooms + 1] already keys an active
    guest.  The call returns that number, the active mapping then holds
    the new dictionary under it, and the displaced dictionary (Bob's) is
    referenced neither by the active mapping nor by the history.  The
    registry is the one after check_in, check_in, check_out(1); the
    number assigned a second time is 2. *)
Theorem reused_room_number_displaces_guest :
  exists s name email phone room_type nights special_requests now
         (old new : ref),
    let room := total_rooms (self s) - available_rooms (self s) + 1 in
    let r := check_in name email phone room_type nights special_requests
               now s in
    reachable 5 s /\
    room = 2 /\
    guests (self s) !! room = Some old /\
    Guest.name <$> store s !! old = Some "Bob" /\
    r.1 = Returns (Some room) /\
    guests (self r.2) !! room = Some new /\
    new <> old /\
    store r.2 !! new
    = Some (new_guest name email phone room_type nights special_requests
              now) /\
    (forall n, guests (self r.2) !! n <> Some old) /\
    old ∉ history (self r.2).
Proof.
  exists after_first_leaves, "Carol", "carol@example.org", "555-0103",
    "Double", 3, "", "2024-05-02 09:00:00", 1%nat, 2%nat.
  cbv zeta.
  split; [unfold after_first_leaves; apply reachable_run; constructor|].
  do 7 (split; [vm_compute; first [reflexivity | discriminate]|]).
  split.
  - intros n.
    assert (guests (self (check_in "Carol" "carol@example.org" "555-0103"
                            "Double" 3 "" "2024-05-02 09:00:00"
                            after_first_leaves).2) = {[ 2 := 2%nat ]}) as ->
      by (vm_compute; reflexivity).
    intros H. apply lookup_singleton_Some in H as [_ H]. discriminate.
  - assert (history (self (check_in "Carol" "carol@example.org" "555-0103"
                             "Double" 3 "" "2024-05-02 09:00:00"
                             after_first_leaves).2) = [0%nat]) as ->
      by (vm_compute; reflexivity).
    intros H. apply list_elem_of_singleton in H. discriminate.
Qed.

(** C4: whenever [check_in] returns a room number, that number is
    [total_rooms - available_rooms + 1] for the values read at the call,
    and the new guest dictionary is stored under it; and it does return
    one whenever a room is available and the room type has a counter. *)
Theorem check_in_assigns_count_based_number
    name email phone room_type nights special_requests now s :
  let room := total_rooms (self s) - available_rooms (self s) + 1 in
  (forall r s',
      check_in name email phone room_type nights special_requests now s
      = (Returns (Some r), s') ->
      r = room /\
      guests (self s') !! r = Some (length (store s)) /\
      store s' !! length (store s)
      = Some (new_guest name email phone room_type nights special_requests
                now)) /\
  (available_rooms (self s) <> 0 ->
   is_Some (room_type_count (self s) !! room_type) ->
   exists s',
     check_in name email phone room_type nights special_requests now s
     = (Returns (Some room), s')).
Proof.
  intros room. split.
  - intros r s' H.
    destruct (decide (available_rooms (self s) = 0)) as [H0|H0].
    + rewrite check_in_full in H by assumption. discriminate.
    + rewrite check_in_eq in H by assumption. simpl in H.
      destruct (room_type_count (self s) !! room_type); [|discriminate].
      injection H as <- <-. simpl. split; [reflexivity|].
      split; [apply lookup_insert_eq|].
      rewrite lookup_app_r by lia. rewrite Nat.sub_diag. reflexivity.
  - intros H0 [c Hc]. rewrite check_in_eq by assumption. simpl.
    rewrite Hc. eauto.
Qed.

Lemma check_in_assigns_count_based_number_witness :
  exists s',
    check_in "Carol" "carol@example.org" "555-0103" "Double" 3 ""
      "2024-05-02 09:00:00" after_first_leaves
    = (Returns (Some 2), s').
Proof.
  apply (proj2 (check_in_assigns_count_based_number
                  "Carol" "carol@example.org" "555-0103" "Double" 3 ""
                  "2024-05-02 09:00:00" after_first_leaves)).
  - vm_compute. discriminate.
  - vm_compute. eauto.
Defined.

(** C5: when [available_rooms] is 0, [check_in] returns [None] (the
    failure signal, not an exception) whatever its arguments, and the
    registry -- counter, active mapping, history, per-type counters and
    the guest dictionaries -- is exactly as before. *)
Theorem check_in_no_room_unchanged
    name email phone room_type nights special_requests now s :
  available_rooms (self s) = 0 ->
  check_in name email phone room_type nights special_requests now s
  = (Returns None, s).
Proof. apply check_in_full. Qed.

Lemma check_in_no_room_unchanged_witness :
  available_rooms (self full_house) = 0 /\
  check_in "Frank" "frank@example.org" "555-0107" "Single" 1 ""
    "2024-05-02 13:00:00" full_house
  = (Returns None, full_house).
Proof.
  split; [vm_compute; reflexivity|].
  apply check_in_no_room_unchanged. vm_compute. reflexivity.
Defined.

(** C6: [check_out] on a room number that is not a key of the active
    mapping returns [None] and leaves the whole registry unchanged. *)
Theorem check_out_unknown_room_noop room_number now s :
  guests (self s) !! room_number = None ->
  check_out room_number now s = (Returns None, s).
Proof. apply check_out_absent. Qed.

Lemma check_out_unknown_room_noop_witness :
  guests (self after_first_leaves) !! 1 = None /\
  check_out 1 "2024-05-03 12:30:00" after_first_leaves
  = (Returns None, after_first_leaves).
Proof.
  split; [vm_compute; reflexivity|].
  apply check_out_unknown_room_noop. vm_compute. reflexivity.
Defined.

(** C7, on the code: Eve's stay (room type "Penthouse") is active under
    room 1 after her check-in raised.  [check_out 1] removes it from the
    active mapping, stamps it, appends it to the history and increments
    [available_rooms], then raises [KeyError] at the counter update: no
    counter is decremented and no record is returned. *)
Theorem check_out_uncounted_type_raises_key_error :
  let r := check_out 1 "2024-05-04 08:00:00" after_eve in
  reachable 5 after_eve /\
  guests (self after_eve) !! 1 = Some 0%nat /\
  r.1 = Raises (KeyError "Penthouse") /\
  guests (self r.2) !! 1 = None /\
  history (self r.2) = [0%nat] /\
  available_rooms (self r.2) = available_rooms (self after_eve) + 1 /\
  room_type_count (self r.2) = room_type_count (self after_eve).
Proof.
  split; [unfold after_eve; apply reachable_run; constructor|].
  vm_compute. repeat split.
Qed.

(** C8: the guest dictionary that [check_in] creates has [total_cost]
    equal to the nightly price of its room type (Single 50, Double 80,
    Suite 120, any other type 50) times its nights; and so has every
    guest dictionary of every reachable registry, active or archived. *)
Theorem total_cost_is_price_times_nights :
  (forall name email phone room_type nights special_requests now s,
      available_rooms (self s) <> 0 ->
      exists g,
        store (check_in name email phone room_type nights special_requests
                 now s).2 !! length (store s) = Some g /\
        Guest.room_type g = room_type /\
        Guest.nights g = nights /\
        Guest.total_cost g = nightly_price room_type * nights) /\
  (forall total s (l : ref) g,
      reachable total s -> store s !! l = Some g ->
      Guest.total_cost g = nightly_price (Guest.room_type g) * Guest.nights g).
Proof.
  split.
  - intros name email phone room_type nights special_requests now s H0.
    exists (new_guest name email phone room_type nights special_requests now).
    rewrite check_in_eq by assumption. simpl.
    split; [|simpl; rewrite catalog_price; auto].
    destruct (room_type_count (self s) !! room_type); simpl;
      rewrite lookup_app_r by lia; rewrite Nat.sub_diag; reflexivity.
  - intros total s l g Hr. revert l g. pattern s. revert s Hr.
    apply reachable_transition_ind.
    + intros l g H. simpl in H. rewrite lookup_nil in H. discriminate.
    + intros s s' _ IH Ht. exact (priced_transition _ _ Ht IH).
Qed.

Lemma total_cost_is_price_times_nights_witness :
  let g := new_guest "Bob" "bob@example.org" "555-0102" "Suite" 1
             "late arrival" "2024-05-01 11:00:00" in
  store three_guests !! 1%nat = Some g /\
  Guest.total_cost g = 120 /\
  Guest.total_cost g = nightly_price (Guest.room_type g) * Guest.nights g.
Proof.
  cbv zeta. split; [vm_compute; reflexivity|].
  split; [vm_compute; reflexivity|].
  apply (proj2 total_cost_is_price_times_nights 5 three_guests 1%nat).
  - unfold three_guests. apply reachable_run. constructor.
  - vm_compute. reflexivity.
Defined.

(** C9: from a reachable registry, any sequence of calls leaves the
    history as it was with records appended at the end, and leaves every
    archived dictionary as it was; and two check-outs of distinct active
    rooms append the two records in the order of the calls. *)
Theorem history_append_only_in_checkout_order total s :
  reachable total s ->
  (forall cs,
      (exists suffix, history (self (run cs s)) = history (self s) ++ suffix) /\
      (forall l : ref,
          l ∈ history (self s) -> store (run cs s) !! l = store s !! l)) /\
  (forall r1 r2 now1 now2 (l1 l2 : ref),
      guests (self s) !! r1 = Some l1 ->
      guests (self s) !! r2 = Some l2 ->
      r1 <> r2 ->
      history (self (run [CheckOut r1 now1; CheckOut r2 now2] s))
      = history (self s) ++ [l1; l2]).
Proof.
  intros Hr. split.
  - intros cs. apply history_run. exact (reachable_store_ok _ _ Hr).
  - intros r1 r2 now1 now2 l1 l2 H1 H2 Hne. simpl.
    destruct (check_out_history r1 now1 s l1 H1) as [Eh Eg].
    pose (s1 := run_call (CheckOut r1 now1) s).
    assert (guests (self s1) !! r2 = Some l2) as H2'.
    { unfold s1. rewrite Eg. rewrite lookup_delete_ne by assumption.
      assumption. }
    destruct (check_out_history r2 now2 s1 l2 H2') as [Eh' _].
    unfold s1 in Eh'. simpl in Eh', Eh. rewrite Eh', Eh, <- app_assoc.
    reflexivity.
Qed.

Lemma history_append_only_in_checkout_order_witness :
  let s := run [CheckOut 3 "2024-05-03 09:00:00";
                CheckOut 1 "2024-05-03 10:00:00"] three_guests in
  history (self s) = [2%nat; 0%nat] /\
  (Guest.name <$> store s !! 2%nat = Some "Carol" /\
   Guest.room_number <$> store s !! 2%nat = Some (Some 3)) /\
  (Guest.name <$> store s !! 0%nat = Some "Alice" /\
   Guest.room_number <$> store s !! 0%nat = Some (Some 1)).
Proof.
  cbv zeta. split; [|vm_compute; repeat split].
  assert (reachable 5 three_guests) as Hr
    by (unfold three_guests; apply reachable_run; constructor).
  apply (proj2 (history_append_only_in_checkout_order 5 three_guests Hr)
           3 1 "2024-05-03 09:00:00" "2024-05-03 10:00:00" 2%nat 0%nat).
  - vm_compute. reflexivity.
  - vm_compute. reflexivity.
  - discriminate.
Defined.

(** C10: in every reachable registry [get_available_by_type] returns, and
    its result lists the room types in the catalog's order, each with its
    1-based position in the catalog minus its occupancy counter. *)
Theorem get_available_by_type_position_minus_count total s :
  reachable total s ->
  exists result,
    get_available_by_type s = (Returns result, s) /\
    dict_keys result = dict_keys ROOM_TYPES /\
    forall (i : nat) rtype,
      dict_keys ROOM_TYPES !! i = Some rtype ->
      exists c,
        room_type_count (self s) !! rtype = Some c /\
        result !! i = Some (rtype, Z.of_nat i + 1 - c).
Proof.
  intros Hr. pose proof (reachable_counters_ok _ _ Hr) as Hok.
  destruct (catalog_key_counted s "Single" Hok) as [c1 H1];
    [simpl; set_solver|].
  destruct (catalog_key_counted s "Double" Hok) as [c2 H2];
    [simpl; set_solver|].
  destruct (catalog_key_counted s "Suite" Hok) as [c3 H3];
    [simpl; set_solver|].
  eexists. split; [exact (get_available_by_type_eq s c1 c2 c3 H1 H2 H3)|].
  split; [reflexivity|].
  intros [|[|[|i]]] rtype Hi; simpl in Hi; [| | |discriminate];
    injection Hi as <-; eexists; (split; [eassumption|reflexivity]).
Qed.

Lemma get_available_by_type_position_minus_count_witness :
  exists result,
    get_available_by_type after_first_leaves
    = (Returns result, after_first_leaves) /\
    result = [("Single", 1); ("Double", 2); ("Suite", 2)].
Proof.
  assert (reachable 5 after_first_leaves) as Hr
    by (unfold after_first_leaves; apply reachable_run; constructor).
  destruct (get_available_by_type_position_minus_count 5 after_first_leaves Hr)
    as (result & Hres & _ & _).
  exists result. split; [exact Hres|].
  vm_compute in Hres. injection Hres as <-. reflexivity.
Defined.

(** * Further properties of the registry *)

(** ** Bounds *)

Lemma available_nonneg_transition s s' :
  transition s s' -> 0 <= available_rooms (self s) ->
  0 <= available_rooms (self s').
Proof. intros Ht H. destruct Ht; simpl; lia. Qed.

Lemma reachable_available_nonneg total s :
  0 <= total -> reachable total s -> 0 <= available_rooms (self s).
Proof.
  intros Htot. revert s. apply reachable_transition_ind; [simpl; lia|].
  eauto using available_nonneg_transition.
Qed.

(** X1: no call changes [total_rooms]; [available_rooms] plus the number
    of active guests never exceeds it; and for a hotel built with a
    non-negative room count, [available_rooms] stays between 0 and
    [total_rooms]. *)
Theorem available_rooms_within_inventory total s :
  reachable total s ->
  total_rooms (self s) = total /\
  available_rooms (self s) + Z.of_nat (size (guests (self s))) <= total /\
  (0 <= total -> 0 <= available_rooms (self s) <= total).
Proof.
  intros Hr. destruct (reachable_occupancy_le _ _ Hr) as [Hle Ht].
  split; [assumption|]. split; [lia|].
  intros Htot. pose proof (reachable_available_nonneg _ _ Htot Hr). lia.
Qed.

Lemma available_rooms_within_inventory_witness :
  total_rooms (self full_house) = 5 /\
  available_rooms (self full_house) + Z.of_nat (size (guests (self full_house)))
  <= 5 /\
  (0 <= 5 -> 0 <= available_rooms (self full_house) <= 5).
Proof.
  apply available_rooms_within_inventory.
  unfold full_house. apply reachable_run. constructor.
Defined.

(** X2: in a hotel built with a non-negative room count, every key of the
    active mapping is a room number between 1 and [total_rooms]. *)
Theorem active_room_numbers_in_range total s r :
  0 <= total -> reachable total s ->
  is_Some (guests (self s) !! r) -> 1 <= r <= total.
Proof.
  intros Htot Hr. revert r. pattern s. revert s Hr.
  apply reachable_transition_ind.
  - intros r [l Hl]. simpl in Hl. rewrite lookup_empty in Hl. discriminate.
  - intros s s' Hr IH Ht r [l Hl].
    destruct (reachable_occupancy_le _ _ Hr) as [Hle Htt].
    pose proof (reachable_available_nonneg _ _ Htot Hr) as H0.
    destruct Ht; simpl in Hl.
    + apply IH. eauto.
    + apply lookup_insert_Some in Hl as [[<- _]|[_ Hl]]; [lia|].
      apply IH. eauto.
    + apply lookup_delete_Some in Hl as [_ Hl]. apply IH. eauto.
Qed.

Lemma active_room_numbers_in_range_witness : 1 <= 3 <= 5.
Proof.
  apply (active_room_numbers_in_range 5 three_guests 3); [lia| |].
  - unfold three_guests. apply reachable_run. constructor.
  - vm_compute. eauto.
Defined.

(** ** The counter keys *)

(** X3: the per-type counters of a reachable registry have exactly the
    keys "Single", "Double" and "Suite": no call adds a counter for
    another room type or removes one. *)
Theorem counter_keys_are_catalog_keys total s :
  reachable total s ->
  dom (room_type_count (self s)) = {[ "Single"; "Double"; "Suite" ]}.
Proof.
  intros Hr. apply set_eq. intros k. rewrite elem_of_dom.
  rewrite (reachable_counters_ok _ _ Hr k). simpl.
  rewrite !elem_of_cons, elem_of_nil, !elem_of_union, !elem_of_singleton.
  tauto.
Qed.

Lemma counter_keys_are_catalog_keys_witness :
  dom (room_type_count (self after_eve)) = {[ "Single"; "Double"; "Suite" ]}.
Proof.
  apply (counter_keys_are_catalog_keys 5).
  unfold after_eve. apply reachable_run. constructor.
Defined.

(** ** Composition of the two methods *)

(** X4: a second [check_out] of the same room number, right after a
    first one, returns [None] and changes nothing -- whether the first
    one returned the record, returned [None] or raised. *)
Theorem check_out_twice_is_noop room_number now now' s :
  let s1 := (check_out room_number now s).2 in
  check_out room_number now' s1 = (Returns None, s1).
Proof.
  intros s1. apply check_out_absent. unfold s1.
  destruct (guests (self s) !! room_number) as [guest|] eqn:Hg.
  - destruct (check_out_state _ now _ _ Hg) as (counts' & _ & ->).
    simpl. apply lookup_delete_eq.
  - rewrite check_out_absent by assumption. assumption.
Qed.

(** X5: when a room is available, the room type has a counter and the
    next room number is not in use, [check_in] followed by [check_out] of
    the number it returned gives the registry back as it was -- same
    [available_rooms], active mapping and counters -- except that the
    history has one more record: the new stay, with its room number and
    check-out date. *)
Theorem check_in_then_check_out_restores
    name email phone room_type nights special_requests now now' s c :
  available_rooms (self s) <> 0 ->
  room_type_count (self s) !! room_type = Some c ->
  guests (self s) !! (total_rooms (self s) - available_rooms (self s) + 1)
  = None ->
  exists room s1 (l : ref) s2,
    check_in name email phone room_type nights special_requests now s
    = (Returns (Some room), s1) /\
    check_out room now' s1 = (Returns (Some l), s2) /\
    self s2
    = mkHotel (total_rooms (self s)) (available_rooms (self s))
        (guests (self s)) (history (self s) ++ [l]) (room_type_count (self s)) /\
    store s2 !! l
    = Some (archived room now'
              (new_guest name email phone room_type nights special_requests
                 now)).
Proof.
  intros H0 Hc Hfree.
  set (g := new_guest name email phone room_type nights special_requests now).
  set (room := total_rooms (self s) - available_rooms (self s) + 1) in *.
  set (s1 := booked s g (<[room_type := c + 1]> (room_type_count (self s)))).
  assert (guests (self s1) !! room = Some (length (store s))) as Hg1
    by apply lookup_insert_eq.
  assert (store s1 !! length (store s) = Some g) as Hs1.
  { simpl. rewrite lookup_app_r by lia. rewrite Nat.sub_diag. reflexivity. }
  assert (room_type_count (self s1) !! Guest.room_type g = Some (c + 1))
    as Hc1 by apply lookup_insert_eq.
  exists room, s1, (length (store s)),
    (freed s1 room now' (length (store s))
       (<[Guest.room_type g := c + 1 - 1]> (room_type_count (self s1)))).
  split; [rewrite check_in_eq by assumption; simpl; rewrite Hc; reflexivity|].
  split.
  { rewrite (check_out_eq _ _ _ _ Hg1), Hs1. cbv zeta. rewrite Hc1.
    reflexivity. }
  split.
  - simpl. f_equal.
    + lia.
    + apply delete_insert_id. assumption.
    + rewrite insert_insert_eq. apply insert_id. rewrite Hc. f_equal. lia.
  - simpl. rewrite list_lookup_alter_eq.
    rewrite lookup_app_r by lia. rewrite Nat.sub_diag. reflexivity.
Qed.

Lemma check_in_then_check_out_restores_witness :
  exists room s1 (l : ref) s2,
    check_in "Dave" "dave@example.org" "555-0104" "Single" 1 ""
      "2024-05-02 10:00:00" three_guests
    = (Returns (Some room), s1) /\
    check_out room "2024-05-03 11:00:00" s1 = (Returns (Some l), s2) /\
    self s2
    = mkHotel (total_rooms (self three_guests))
        (available_rooms (self three_guests)) (guests (self three_guests))
        (history (self three_guests) ++ [l])
        (room_type_count (self three_guests)) /\
    store s2 !! l
    = Some (archived room "2024-05-03 11:00:00"
              (new_guest "Dave" "dave@example.org" "555-0104" "Single" 1 ""
                 "2024-05-02 10:00:00")).
Proof.
  apply (check_in_then_check_out_restores _ _ _ _ _ _ _ _ three_guests 1).
  - vm_compute. discriminate.
  - vm_compute. reflexivity.
  - vm_compute. reflexivity.
Defined.

(** ** Guests leaving in reverse order of arrival *)

Lemma compact_init total : compact (init total).
Proof.
  split; simpl.
  - intros r. rewrite lookup_empty. split; [intros [? ?]; discriminate|lia].
  - rewrite map_size_empty. lia.
Qed.

Lemma compact_booked s g counts :
  available_rooms (self s) <> 0 -> compact s -> compact (booked s g counts).
Proof.
  intros H0 [Hdom Hsize]. split; simpl.
  - intros r. rewrite lookup_insert_is_Some', Hdom. lia.
  - rewrite map_size_insert_None; [lia|].
    apply eq_None_not_Some. rewrite Hdom. lia.
Qed.

Lemma compact_freed_last s now guest counts :
  guests (self s) !! (total_rooms (self s) - available_rooms (self s))
  = Some guest ->
  compact s ->
  compact (freed s (total_rooms (self s) - available_rooms (self s)) now
             guest counts).
Proof.
  intros Hg [Hdom Hsize]. split; simpl.
  - intros r. rewrite lookup_delete_is_Some, Hdom. lia.
  - rewrite map_size_delete, Hg. simpl.
    pose proof (map_size_ne_0_lookup_2 _ _ (mk_is_Some _ _ Hg)). lia.
Qed.

Lemma compact_run_call s c : leaves_last s c -> compact s -> compact (run_call c s).
Proof.
  intros Hc Hs.
  destruct c as [name email phone room_type nights special_requests now
                |room_number now]; simpl in *.
  - destruct (decide (available_rooms (self s) = 0)) as [H0|H0].
    + rewrite check_in_full by assumption. assumption.
    + rewrite check_in_eq by assumption. simpl.
      destruct (room_type_count (self s) !! room_type); simpl;
        apply compact_booked; assumption.
  - destruct (guests (self s) !! room_number) as [guest|] eqn:Hg.
    + destruct Hc as [Hc | ->]; [discriminate|].
      destruct (check_out_state _ now _ _ Hg) as (counts' & _ & ->).
      apply compact_freed_last; assumption.
    + rewrite check_out_absent by assumption. assumption.
Qed.

(** X6: as long as every [check_out] is for the room booked last (or for
    a room that is not occupied), the occupied room numbers are exactly
    1 .. [total_rooms - available_rooms], so that no [check_in] overwrites
    an active guest, and [available_rooms] plus the number of active
    guests equals [total_rooms]. *)
Theorem lifo_keeps_occupancy_sum total s :
  lifo_reachable total s ->
  (forall r,
      is_Some (guests (self s) !! r) <->
      1 <= r <= total_rooms (self s) - available_rooms (self s)) /\
  guests (self s) !! (total_rooms (self s) - available_rooms (self s) + 1)
  = None /\
  available_rooms (self s) + Z.of_nat (size (guests (self s)))
  = total_rooms (self s).
Proof.
  intros Hl.
  assert (compact s) as [Hdom Hsize].
  { induction Hl; [apply compact_init | apply compact_run_call; assumption]. }
  split; [assumption|]. split; [|lia].
  apply eq_None_not_Some. rewrite Hdom. lia.
Qed.

Lemma lifo_keeps_occupancy_sum_witness :
  let s := run_call dave (run_call (CheckOut 3 "2024-05-03 09:00:00")
                            three_guests) in
  available_rooms (self s) + Z.of_nat (size (guests (self s)))
  = total_rooms (self s).
Proof.
  cbv zeta. apply (lifo_keeps_occupancy_sum 5).
  apply lifo_call; [|exact I].
  apply lifo_call; [|right; vm_compute; reflexivity].
  change three_guests
    with (run_call carol (run_call bob (run_call alice (init 5)))).
  repeat (apply lifo_call; [|exact I]). apply lifo_init.
Defined.

(** ** The guest records *)

Lemma history_nodup_transition s s' :
  transition s s' -> store_ok s ->
  NoDup (history (self s)) -> NoDup (history (self s')).
Proof.
  intros Ht Hok Hnd. destruct Ht as [| |room_number now guest counts' Hg _];
    simpl; try assumption.
  apply NoDup_app. split; [assumption|]. split; [|apply NoDup_singleton].
  intros l Hl Hin. apply list_elem_of_singleton in Hin as ->.
  exact (guests_not_archived _ Hok _ _ Hg Hl).
Qed.

(** X7: in a reachable registry no record is in the history twice, no
    record of the history is still in the active mapping, and no record
    is active under two room numbers. *)
Theorem stay_records_are_not_shared total s :
  reachable total s ->
  NoDup (history (self s)) /\
  (forall r (l : ref), guests (self s) !! r = Some l -> l ∉ history (self s)) /\
  (forall r1 r2 (l : ref),
      guests (self s) !! r1 = Some l -> guests (self s) !! r2 = Some l ->
      r1 = r2).
Proof.
  intros Hr. pose proof (reachable_store_ok _ _ Hr) as Hok.
  split; [|split; [apply Hok | apply Hok]].
  revert s Hr Hok. 
  apply (reachable_transition_ind total
           (fun s => store_ok s -> NoDup (history (self s)))).
  - intros _. simpl. apply NoDup_nil. exact I.
  - intros s s' Hr IH Ht _.
    pose proof (reachable_store_ok _ _ Hr) as Hok.
    eauto using history_nodup_transition.
Qed.

Lemma stay_records_are_not_shared_witness :
  let s := run [CheckOut 3 "2024-05-03 09:00:00";
                CheckOut 1 "2024-05-03 10:00:00"] three_guests in
  NoDup (history (self s)) /\
  (forall r (l : ref), guests (self s) !! r = Some l -> l ∉ history (self s)) /\
  (forall r1 r2 (l : ref),
      guests (self s) !! r1 = Some l -> guests (self s) !! r2 = Some l ->
      r1 = r2).
Proof.
  cbv zeta. apply (stay_records_are_not_shared 5).
  unfold three_guests. repeat apply reachable_run. constructor.
Defined.

Lemma records_ok_init total : records_ok (init total).
Proof.
  split; simpl.
  - intros l H. inversion H.
  - intros r l H. rewrite lookup_empty in H. discriminate.
Qed.

Lemma records_ok_transition s s' :
  transition s s' -> store_ok s -> records_ok s -> records_ok s'.
Proof.
  intros Ht Hok [Hh Hg].
  destruct Ht as [|name email phone room_type nights special_requests now
                    counts' H0 _
                  |room_number now guest counts' Hgr _];
    [split; assumption| |].
  - split; simpl.
    + intros l Hl. destruct (Hh _ Hl) as (g & Hs & Ha).
      exists g. split; [|assumption].
      rewrite lookup_app_l by exact (history_in_store _ Hok _ Hl). assumption.
    + intros r l Hl.
      apply lookup_insert_Some in Hl as [[_ <-]|[_ Hl]].
      * eexists.
        split; [rewrite lookup_app_r by lia; rewrite Nat.sub_diag; reflexivity|].
        split; reflexivity.
      * destruct (Hg _ _ Hl) as (g & Hs & Ha). exists g. split; [|assumption].
        rewrite lookup_app_l by exact (guests_in_store _ Hok _ _ Hl).
        assumption.
  - split; simpl.
    + intros l Hl. apply elem_of_app in Hl as [Hl|Hl].
      * destruct (Hh _ Hl) as (g & Hs & Ha). exists g. split; [|assumption].
        rewrite list_lookup_alter_ne; [assumption|].
        intros ->. exact (guests_not_archived _ Hok _ _ Hgr Hl).
      * apply list_elem_of_singleton in Hl as ->.
        destruct (Hg _ _ Hgr) as (g & Hs & _).
        exists (archived room_number now g).
        rewrite list_lookup_alter_eq, Hs. split; [reflexivity|].
        split; simpl; eauto.
    + intros r l Hl. apply lookup_delete_Some in Hl as [Hne Hl].
      destruct (Hg _ _ Hl) as (g & Hs & Ha). exists g. split; [|assumption].
      rewrite list_lookup_alter_ne; [assumption|].
      intros ->. apply Hne. exact (guests_distinct _ Hok _ _ _ Hgr Hl).
Qed.

Lemma reachable_records_ok total s : reachable total s -> records_ok s.
Proof.
  revert s. apply reachable_transition_ind; [apply records_ok_init|].
  intros s s' Hr IH Ht.
  eauto using records_ok_transition, reachable_store_ok.
Qed.

(** X8: in a reachable registry every record of the history has the keys
    ['room_number'] and ['check_out_date'], and every record of the
    active mapping has neither. *)
Theorem archived_records_are_stamped total s :
  reachable total s ->
  (forall l : ref,
      l ∈ history (self s) ->
      exists g rn d,
        store s !! l = Some g /\
        Guest.room_number g = Some rn /\ Guest.check_out_date g = Some d) /\
  (forall r (l : ref),
      guests (self s) !! r = Some l ->
      exists g,
        store s !! l = Some g /\
        Guest.room_number g = None /\ Guest.check_out_date g = None).
Proof.
  intros Hr. destruct (reachable_records_ok _ _ Hr) as [Hh Hg]. split.
  - intros l Hl. destruct (Hh _ Hl) as (g & Hs & [rn Hrn] & [d Hd]). eauto 6.
  - intros r l Hl. destruct (Hg _ _ Hl) as (g & Hs & Hrn & Hd). eauto.
Qed.

Lemma archived_records_are_stamped_witness :
  exists g rn d,
    store (run_call (CheckOut 1 "2024-05-04 08:00:00") after_eve) !! 0%nat
    = Some g /\
    Guest.room_number g = Some rn /\ Guest.check_out_date g = Some d.
Proof.
  apply (proj1 (archived_records_are_stamped 5
                  (run_call (CheckOut 1 "2024-05-04 08:00:00") after_eve)
                  (reachable_call 5 _ _
                     (reachable_run 5 [eve] _ (reachable_init 5))))).
  vm_compute. apply list_elem_of_here.
Defined.

(** ** What the counters count *)

Lemma open_stays_snoc k st g :
  open_stays k (st ++ [g]) = (open_stays k st + open_weight k g)%nat.
Proof.
  unfold open_stays, open_weight.
  rewrite filter_app, length_app, filter_cons, filter_nil.
  case_decide; reflexivity.
Qed.

Lemma open_stays_alter k f st (i : nat) g :
  st !! i = Some g ->
  (open_stays k (alter f i st) + open_weight k g
   = open_stays k st + open_weight k (f g))%nat.
Proof.
  unfold open_stays, open_weight.
  revert i. induction st as [|x st IH]; intros [|i] H; simpl in H;
    try discriminate.
  - injection H as ->. simpl. rewrite !filter_cons.
    repeat case_decide; simpl; lia.
  - change (alter f (S i) (x :: st)) with (x :: alter f i st).
    rewrite !filter_cons. specialize (IH i H).
    destruct (decide (open_stay k x)); simpl; lia.
Qed.

Lemma counted_init total : counters_count_open_stays (init total).
Proof.
  intros k Hk. simpl in *.
  rewrite !elem_of_cons, elem_of_nil in Hk.
  destruct Hk as [->|[->|[->|[]]]]; reflexivity.
Qed.

Lemma counted_run_call total s c :
  reachable total s ->
  counters_count_open_stays s -> counters_count_open_stays (run_call c s).
Proof.
  intros Hr Hc.
  pose proof (reachable_counters_ok _ _ Hr) as Hkeys.
  destruct (reachable_records_ok _ _ Hr) as [_ Hactive].
  destruct c as [name email phone room_type nights special_requests now
                |room_number now]; simpl.
  - destruct (decide (available_rooms (self s) = 0)) as [H0|H0].
    { rewrite check_in_full by assumption. assumption. }
    rewrite check_in_eq by assumption. simpl.
    destruct (room_type_count (self s) !! room_type) as [c|] eqn:E; simpl;
      intros k Hk; simpl; rewrite open_stays_snoc; unfold open_weight.
    + destruct (decide (room_type = k)) as [->|Hne].
      * rewrite lookup_insert_eq.
        rewrite (Hc k Hk) in E. injection E as <-.
        rewrite decide_True by (split; reflexivity). f_equal. lia.
      * rewrite lookup_insert_ne by assumption.
        rewrite decide_False by (intros [H _]; simpl in H; congruence).
        rewrite Nat.add_0_r. apply Hc. assumption.
    + assert (room_type <> k) as Hne.
      { intros ->. apply Hkeys in Hk as [c Hk]. congruence. }
      rewrite decide_False by (intros [H _]; simpl in H; congruence).
      rewrite Nat.add_0_r. apply Hc. assumption.
  - destruct (guests (self s) !! room_number) as [guest|] eqn:Hg.
    2: { rewrite check_out_absent by assumption. assumption. }
    destruct (Hactive _ _ Hg) as (g & Hs & _ & Hopen).
    rewrite (check_out_eq _ _ _ _ Hg), Hs. cbv zeta.
    assert (forall k,
               (open_stays k (alter (archived room_number now) guest (store s))
                + open_weight k g = open_stays k (store s))%nat) as Ha.
    { intros k. rewrite (open_stays_alter k _ _ _ _ Hs).
      unfold open_weight.
      rewrite decide_False by (intros [_ H]; simpl in H; discriminate).
      lia. }
    destruct (room_type_count (self s) !! Guest.room_type g) as [c|] eqn:E;
      simpl; intros k Hk; simpl; specialize (Ha k); unfold open_weight in Ha.
    + destruct (decide (Guest.room_type g = k)) as [<-|Hne].
      * rewrite lookup_insert_eq.
        rewrite (Hc _ Hk) in E. injection E as <-.
        rewrite decide_True in Ha by (split; [reflexivity|assumption]).
        f_equal. lia.
      * rewrite lookup_insert_ne by assumption.
        rewrite decide_False in Ha by (intros [H _]; congruence).
        rewrite Nat.add_0_r in Ha. rewrite Ha. apply Hc. assumption.
    + assert (Guest.room_type g <> k) as Hne.
      { intros <-. apply Hkeys in Hk as [c Hk]. congruence. }
      rewrite decide_False in Ha by (intros [H _]; congruence).
      rewrite Nat.add_0_r in Ha. rewrite Ha. apply Hc. assumption.
Qed.

Lemma reachable_counted total s :
  reachable total s -> counters_count_open_stays s.
Proof.
  intros Hr. induction Hr; [apply counted_init|].
  eapply counted_run_call; eassumption.
Qed.

(** X9: in a reachable registry the counter of each catalog room type is
    the number of stays of that type that [check_in] has created and
    [check_out] has not archived -- the stays displaced by a reused room
    number included -- and so is never negative. *)
Theorem counter_counts_open_stays total s k :
  reachable total s ->
  k ∈ dict_keys ROOM_TYPES ->
  exists c,
    room_type_count (self s) !! k = Some c /\
    c = Z.of_nat (open_stays k (store s)) /\
    0 <= c.
Proof.
  intros Hr Hk. eexists. split; [exact (reachable_counted _ _ Hr k Hk)|].
  split; [reflexivity|lia].
Qed.

Lemma counter_counts_open_stays_witness :
  let s := run [carol] after_first_leaves in
  exists c,
    room_type_count (self s) !! "Suite" = Some c /\
    c = Z.of_nat (open_stays "Suite" (store s)) /\
    0 <= c.
Proof.
  cbv zeta. apply (counter_counts_open_stays 5).
  - unfold after_first_leaves. repeat apply reachable_run. constructor.
  - simpl. rewrite !elem_of_cons. auto.
Defined.

(** X10: in a reachable registry the availability that
    [get_available_by_type] reports for the room type at position [i]
    (counting from 0) is at most [i + 1]. *)
Theorem available_by_type_at_most_position total s result (i : nat) rtype v :
  reachable total s ->
  (get_available_by_type s).1 = Returns result ->
  result !! i = Some (rtype, v) ->
  v <= Z.of_nat i + 1.
Proof.
  intros Hr Hres Hi.
  pose proof (reachable_counted _ _ Hr) as Hc.
  assert (forall k, k ∈ dict_keys ROOM_TYPES ->
                    exists c, room_type_count (self s) !! k = Some c /\ 0 <= c)
    as Hk.
  { intros k Hk. eexists. split; [exact (Hc k Hk)|lia]. }
  destruct (Hk "Single") as (c1 & H1 & ?); [simpl; rewrite !elem_of_cons; auto|].
  destruct (Hk "Double") as (c2 & H2 & ?); [simpl; rewrite !elem_of_cons; auto|].
  destruct (Hk "Suite") as (c3 & H3 & ?); [simpl; rewrite !elem_of_cons; auto|].
  rewrite (get_available_by_type_eq s c1 c2 c3 H1 H2 H3) in Hres.
  injection Hres as <-.
  destruct i as [|[|[|i]]]; simpl in Hi; try discriminate;
    injection Hi as <- <-; lia.
Qed.

Lemma available_by_type_at_most_position_witness : 0 <= Z.of_nat 1 + 1.
Proof.
  apply (available_by_type_at_most_position 5
           (run [erin; erin] (init 5))
           [("Single", 1); ("Double", 0); ("Suite", 3)] 1%nat "Double" 0).
  - apply reachable_run. constructor.
  - vm_compute. reflexivity.
  - reflexivity.
Defined.

(** ** CSV export *)




(** ** The HTTP handlers *)

Section HandlerProperties.
Variable py_int : string -> option Z.

(** X12: [checkout] leaves the registry unchanged unless the form has a
    room field that [int] accepts and whose value is an active room
    number; when the field is there it answers with the redirect to the
    index page, also for a value that is not an integer. *)
Theorem checkout_ignores_unknown_rooms form now s :
  (forall text room,
      form !! "room" = Some text -> py_int text = Some room ->
      guests (self s) !! room = None) ->
  (checkout py_int form now s).2 = s /\
  (is_Some (form !! "room") ->
   (checkout py_int form now s).1 = Responds (Redirect "index")).
Proof.
  intros H. unfold checkout, form_getitem.
  destruct (form !! "room") as [text|] eqn:Hf.
  - destruct (py_int text) as [room|] eqn:Hi.
    + rewrite (check_out_absent room now s) by eauto. auto.
    + auto.
  - split; [reflexivity|]. intros [? ?]. discriminate.
Qed.

(** X13: when [available_rooms] is 0, [checkin] leaves the registry
    unchanged whatever the form holds, and a form with the five required
    fields and integer nights still gets the redirect to the index page:
    the guest is not checked in and is not told. *)
Theorem checkin_when_full_redirects_unchanged form now s :
  available_rooms (self s) = 0 ->
  (checkin py_int form now s).2 = s /\
  (forall text nights,
      is_Some (form !! "name") -> is_Some (form !! "email") ->
      is_Some (form !! "phone") -> is_Some (form !! "room_type") ->
      form !! "nights" = Some text -> py_int text = Some nights ->
      (checkin py_int form now s).1 = Responds (Redirect "index")).
Proof.
  intros H0. unfold checkin, form_getitem.
  destruct (form !! "name"); [|split; [reflexivity|]; intros ? ? [? ?]; discriminate].
  destruct (form !! "email");
    [|split; [reflexivity|]; intros ? ? _ [? ?]; discriminate].
  destruct (form !! "phone");
    [|split; [reflexivity|]; intros ? ? _ _ [? ?]; discriminate].
  destruct (form !! "room_type");
    [|split; [reflexivity|]; intros ? ? _ _ _ [? ?]; discriminate].
  destruct (form !! "nights") as [text|];
    [|split; [reflexivity|]; intros ? ? _ _ _ _ ?; discriminate].
  destruct (py_int text) as [nights|] eqn:Hi.
  - rewrite check_in_full by assumption. split; [reflexivity|]. reflexivity.
  - split; [reflexivity|]. intros ? ? _ _ _ _ [= <-] ?. congruence.
Qed.

(** X14: on a reachable registry [checkout] either answers with the
    redirect to the index page, or fails with the [BadRequestKeyError] of
    a form without a room field, or lets through the [KeyError] that
    [check_out] raises for a stay whose room type is not in the catalog;
    nothing else leaves it. *)
Theorem checkout_outcomes total form now s :
  reachable total s ->
  match (checkout py_int form now s).1 with
  | Responds r => r = Redirect "index"
  | Fails (BadRequestKeyError key) => key = "room" /\ form !! "room" = None
  | Fails (IntValueError _) => False
  | Fails (Escaped (KeyError key)) => key ∉ dict_keys ROOM_TYPES
  | Fails (Escaped _) => False
  end.
Proof.
  intros Hr. unfold checkout, form_getitem.
  destruct (form !! "room") as [text|]; [|simpl; auto].
  destruct (py_int text) as [room|]; [|reflexivity].
  destruct (guests (self s) !! room) as [guest|] eqn:Hg.
  - destruct (reachable_records_ok _ _ Hr) as [_ Ha].
    destruct (Ha _ _ Hg) as (g & Hs & _).
    rewrite (check_out_eq _ _ _ _ Hg), Hs. cbv zeta.
    destruct (room_type_count (self s) !! Guest.room_type g) eqn:Hc; simpl;
      [reflexivity|].
    intros Hk. apply (reachable_counters_ok _ _ Hr) in Hk as [c Hk].
    congruence.
  - rewrite check_out_absent by assumption. reflexivity.
Qed.

(** X15: on a reachable registry [checkin] either answers with the
    redirect to the index page, or fails with the [BadRequestKeyError] of
    a missing form field, the [ValueError] of nights that are not an
    integer, or the [KeyError] of a room type that is not in the catalog;
    nothing else leaves it.  With a catalog room type and a well-formed
    form it always redirects. *)
Theorem checkin_outcomes total form now s :
  reachable total s ->
  match (checkin py_int form now s).1 with
  | Responds r => r = Redirect "index"
  | Fails (BadRequestKeyError key) => form !! key = None
  | Fails (IntValueError text) =>
      form !! "nights" = Some text /\ py_int text = None
  | Fails (Escaped (KeyError key)) =>
      form !! "room_type" = Some key /\ key ∉ dict_keys ROOM_TYPES
  | Fails (Escaped _) => False
  end.
Proof.
  intros Hr. unfold checkin, form_getitem.
  destruct (form !! "name") as [name|] eqn:E1; [|assumption].
  destruct (form !! "email") as [email|] eqn:E2; [|assumption].
  destruct (form !! "phone") as [phone|] eqn:E3; [|assumption].
  destruct (form !! "room_type") as [room_type|] eqn:E4; [|assumption].
  destruct (form !! "nights") as [text|] eqn:E5; [|assumption].
  destruct (py_int text) as [nights|] eqn:Hi; [|simpl; auto].
  destruct (decide (available_rooms (self s) = 0)) as [H0|H0].
  - rewrite check_in_full by assumption. reflexivity.
  - rewrite check_in_eq by assumption. cbv zeta.
    destruct (room_type_count (self s) !! room_type) eqn:Hc; simpl;
      [reflexivity|].
    split; [reflexivity|].
    intros Hk. apply (reachable_counters_ok _ _ Hr) in Hk as [c Hk].
    congruence.
Qed.

End HandlerProperties.

Lemma checkout_ignores_unknown_rooms_witness :
  (checkout int_of_digits (room_form "one") "2024-05-03 09:00:00"
     three_guests).2 = three_guests /\
  (checkout int_of_digits (room_form "7") "2024-05-03 09:00:00"
     three_guests).2 = three_guests.
Proof.
  split.
  - apply (checkout_ignores_unknown_rooms int_of_digits).
    intros text room Hf Hi. vm_compute in Hf. injection Hf as <-.
    vm_compute in Hi. discriminate.
  - apply (checkout_ignores_unknown_rooms int_of_digits).
    intros text room Hf Hi. vm_compute in Hf. injection Hf as <-.
    vm_compute in Hi. injection Hi as <-. vm_compute. reflexivity.
Defined.

Lemma checkin_when_full_redirects_unchanged_witness :
  (checkin int_of_digits (booking_form "Frank" "Single" "2")
     "2024-05-02 13:00:00" full_house).2 = full_house /\
  (checkin int_of_digits (booking_form "Frank" "Single" "2")
     "2024-05-02 13:00:00" full_house).1 = Responds (Redirect "index").
Proof.
  destruct (checkin_when_full_redirects_unchanged int_of_digits
              (booking_form "Frank" "Single" "2") "2024-05-02 13:00:00"
              full_house) as [Hs Hr]; [vm_compute; reflexivity|].
  split; [exact Hs|].
  apply (Hr "2" 2); vm_compute; eauto.
Defined.

Lemma checkout_outcomes_witness :
  (checkout int_of_digits (room_form "1") "2024-05-04 08:00:00" after_eve).1
  = Fails (Escaped (KeyError "Penthouse")) /\
  "Penthouse" ∉ dict_keys ROOM_TYPES.
Proof.
  assert ((checkout int_of_digits (room_form "1") "2024-05-04 08:00:00"
             after_eve).1 = Fails (Escaped (KeyError "Penthouse"))) as E
    by (vm_compute; reflexivity).
  split; [exact E|].
  pose proof (checkout_outcomes int_of_digits 5 (room_form "1")
                "2024-05-04 08:00:00" after_eve
                (reachable_run 5 [eve] _ (reachable_init 5))) as H.
  rewrite E in H. exact H.
Defined.

Lemma checkin_outcomes_witness :
  (checkin int_of_digits (booking_form "Gina" "Suite" "two")
     "2024-05-02 14:00:00" three_guests).1 = Fails (IntValueError "two") /\
  booking_form "Gina" "Suite" "two" !! "nights" = Some "two" /\
  int_of_digits "two" = None.
Proof.
  assert ((checkin int_of_digits (booking_form "Gina" "Suite" "two")
             "2024-05-02 14:00:00" three_guests).1
          = Fails (IntValueError "two")) as E by (vm_compute; reflexivity).
  split; [exact E|].
  pose proof (checkin_outcomes int_of_digits 5
                (booking_form "Gina" "Suite" "two") "2024-05-02 14:00:00"
                three_guests
                (reachable_run 5 [alice; bob; carol] _ (reachable_init 5)))
    as H.
  rewrite E in H. exact H.
Defined.

(** ** Effects and frame of the two methods *)

(** X16: in a reachable registry with an available room, [check_in] with
    a catalog room type returns the room number
    [total_rooms - available_rooms + 1]; it decrements [available_rooms],
    increments the counter of that room type and no other, stores the new
    record under the returned number, and leaves the history alone. *)
Theorem check_in_catalog_type_effects total s
    name email phone room_type nights special_requests now :
  reachable total s ->
  available_rooms (self s) <> 0 ->
  room_type ∈ dict_keys ROOM_TYPES ->
  exists s' c,
    let room := total_rooms (self s) - available_rooms (self s) + 1 in
    check_in name email phone room_type nights special_requests now s
    = (Returns (Some room), s') /\
    available_rooms (self s') = available_rooms (self s) - 1 /\
    room_type_count (self s) !! room_type = Some c /\
    room_type_count (self s') !! room_type = Some (c + 1) /\
    (forall k, k <> room_type ->
               room_type_count (self s') !! k = room_type_count (self s) !! k) /\
    guests (self s') !! room = Some (length (store s)) /\
    store s' !! length (store s)
    = Some (new_guest name email phone room_type nights special_requests now) /\
    history (self s') = history (self s).
Proof.
  intros Hr H0 Hk.
  apply (reachable_counters_ok _ _ Hr) in Hk as [c Hc].
  eexists _, c. cbv zeta. rewrite check_in_eq by assumption. cbv zeta.
  rewrite Hc. split; [reflexivity|]. simpl.
  split; [reflexivity|]. split; [reflexivity|].
  split; [apply lookup_insert_eq|].
  split; [intros k Hne; apply lookup_insert_ne; congruence|].
  split; [apply lookup_insert_eq|].
  split; [|reflexivity].
  rewrite lookup_app_r by lia. rewrite Nat.sub_diag. reflexivity.
Qed.

Lemma check_in_catalog_type_effects_witness :
  exists s',
    check_in "Dave" "dave@example.org" "555-0104" "Single" 1 ""
      "2024-05-02 10:00:00" three_guests
    = (Returns (Some 4), s') /\
    available_rooms (self s') = 1 /\
    room_type_count (self s') !! "Single" = Some 2.
Proof.
  destruct (check_in_catalog_type_effects 5 three_guests
              "Dave" "dave@example.org" "555-0104" "Single" 1 ""
              "2024-05-02 10:00:00")
    as (s' & c & Hin & Ha & Hc & Hc' & _).
  - unfold three_guests. apply reachable_run. constructor.
  - vm_compute. discriminate.
  - simpl. rewrite !elem_of_cons. auto.
  - exists s'. split; [exact Hin|]. split; [exact Ha|].
    vm_compute in Hc. injection Hc as <-. exact Hc'.
Defined.

(** X17: in a reachable registry, [check_out] of an active room whose
    stay has a catalog room type returns the record; it removes that key
    and no other from the active mapping, appends the record to the
    history, increments [available_rooms], decrements the counter of that
    room type and no other, and the record keeps its eight fields and
    gains the room number and the check-out date. *)
Theorem check_out_catalog_type_effects total s room_number now guest g :
  reachable total s ->
  guests (self s) !! room_number = Some guest ->
  store s !! guest = Some g ->
  Guest.room_type g ∈ dict_keys ROOM_TYPES ->
  exists s' c,
    check_out room_number now s = (Returns (Some guest), s') /\
    guests (self s') = delete room_number (guests (self s)) /\
    history (self s') = history (self s) ++ [guest] /\
    available_rooms (self s') = available_rooms (self s) + 1 /\
    room_type_count (self s) !! Guest.room_type g = Some c /\
    room_type_count (self s') !! Guest.room_type g = Some (c - 1) /\
    (forall k, k <> Guest.room_type g ->
               room_type_count (self s') !! k = room_type_count (self s) !! k) /\
    store s' !! guest
    = Some (Guest.mk (Guest.name g) (Guest.email g) (Guest.phone g)
              (Guest.room_type g) (Guest.nights g) (Guest.total_cost g)
              (Guest.check_in_date g) (Guest.special_requests g)
              (Some room_number) (Some now)).
Proof.
  intros Hr Hg Hs Hk.
  apply (reachable_counters_ok _ _ Hr) in Hk as [c Hc].
  destruct (check_out_archives _ now _ _ _ _ Hg Hs Hc)
    as (s' & Hout & Eg & Eh & Ea & Ec & Es).
  exists s', c. repeat (split; [assumption|]).
  split; [rewrite Ec; apply lookup_insert_eq|].
  split; [intros k Hne; rewrite Ec; apply lookup_insert_ne; congruence|].
  exact Es.
Qed.

Lemma check_out_catalog_type_effects_witness :
  exists s',
    check_out 2 "2024-05-03 09:30:00" three_guests
    = (Returns (Some 1%nat), s') /\
    available_rooms (self s') = 3 /\
    room_type_count (self s') !! "Suite" = Some 0 /\
    Guest.room_number <$> store s' !! 1%nat = Some (Some 2).
Proof.
  destruct (check_out_catalog_type_effects 5 three_guests 2
              "2024-05-03 09:30:00" 1%nat
              (new_guest "Bob" "bob@example.org" "555-0102" "Suite" 1
                 "late arrival" "2024-05-01 11:00:00"))
    as (s' & c & Hout & _ & _ & Ha & Hc & Hc' & _ & Hs).
  - unfold three_guests. apply reachable_run. constructor.
  - vm_compute. reflexivity.
  - vm_compute. reflexivity.
  - simpl. rewrite !elem_of_cons. auto.
  - exists s'. split; [exact Hout|]. split; [exact Ha|].
    vm_compute in Hc. injection Hc as <-.
    split; [exact Hc'|]. rewrite Hs. reflexivity.
Defined.

(** X18: a call leaves every other room alone: an active guest under a
    room number other than the one the call works on is still active
    under that number afterwards, with the same record, unchanged. *)
Theorem other_rooms_untouched total s c r (l : ref) :
  reachable total s ->
  guests (self s) !! r = Some l ->
  r <> call_room s c ->
  guests (self (run_call c s)) !! r = Some l /\
  store (run_call c s) !! l = store s !! l.
Proof.
  intros Hr Hl Hne. pose proof (reachable_store_ok _ _ Hr) as Hok.
  destruct c as [name email phone room_type nights special_requests now
                |room_number now]; simpl in *.
  - destruct (decide (available_rooms (self s) = 0)) as [H0|H0].
    { rewrite check_in_full by assumption. auto. }
    rewrite check_in_eq by assumption. cbv zeta.
    assert (forall counts,
               guests (self (booked s
                 (new_guest name email phone room_type nights
                    special_requests now) counts)) !! r = Some l /\
               store (booked s
                 (new_guest name email phone room_type nights
                    special_requests now) counts) !! l = store s !! l) as H.
    { intros counts. simpl. split.
      - rewrite lookup_insert_ne by congruence. assumption.
      - apply lookup_app_l. exact (guests_in_store _ Hok _ _ Hl). }
    destruct (room_type_count (self s) !! room_type); apply H.
  - destruct (guests (self s) !! room_number) as [guest|] eqn:Hg.
    2: { rewrite check_out_absent by assumption. auto. }
    destruct (check_out_state _ now _ _ Hg) as (counts' & _ & ->). simpl.
    split.
    + rewrite lookup_delete_ne by congruence. assumption.
    + apply list_lookup_alter_ne. intros ->.
      apply Hne. exact (guests_distinct _ Hok _ _ _ Hl Hg).
Qed.

Lemma other_rooms_untouched_witness :
  guests (self (run_call (CheckOut 1 "2024-05-03 10:00:00") three_guests)) !! 2
  = Some 1%nat /\
  store (run_call (CheckOut 1 "2024-05-03 10:00:00") three_guests) !! 1%nat
  = store three_guests !! 1%nat.
Proof.
  apply (other_rooms_untouched 5).
  - unfold three_guests. apply reachable_run. constructor.
  - vm_compute. reflexivity.
  - simpl. lia.
Defined.

(** ** Exact accounting *)

(** X19: in a reachable registry [available_rooms] is [total_rooms] minus
    the number of stays [check_in] has registered plus the number of
    records in the history. *)
Theorem available_rooms_accounting total s :
  reachable total s ->
  available_rooms (self s)
  = total - Z.of_nat (length (store s)) + Z.of_nat (length (history (self s))).
Proof.
  revert s. apply reachable_transition_ind; [simpl; lia|].
  intros s s' _ IH Ht. destruct Ht; simpl; [assumption| |].
  - rewrite length_app. simpl. lia.
  - rewrite length_alter, length_app. simpl. lia.
Qed.

Lemma available_rooms_accounting_witness :
  let s := run [carol] after_first_leaves in
  available_rooms (self s)
  = 5 - Z.of_nat (length (store s)) + Z.of_nat (length (history (self s))).
Proof.
  cbv zeta. apply available_rooms_accounting.
  unfold after_first_leaves. repeat apply reachable_run. constructor.
Defined.
